(** * chart_script.py: layout of the layered architecture diagram

    A shallow embedding of [chart_script.py].  The script builds a plotly
    figure by appending traces to [fig]: one background bar per layer, one bar
    per component, one two-point scatter per resolved connection and one text
    scatter per protocol label.  The tables the script hard-codes
    ([layers_data], [flow_connections], [protocol_labels], [x_label_pos],
    [y_label_pos]) are parameters of the embedded script, and are also given
    with their literal values.

    Numbers.  Python [int]s are [Z].  The script's [float]s are given two
    readings.  In the main embedding they are exact rationals [Q] (a literal
    such as [0.8] is 8/10 and [/] is exact division): this is the reading of
    the layout formulas as arithmetic, used for the statements on order,
    overlap and span.  In [Binary64] the layer loop is embedded again with
    IEEE 754 binary64 numbers, as the interpreter computes them: this is the
    reading used for statements on the values the program holds.

    Errors.  The operations of the script that can raise ([list.index],
    subscripting, [/]) return a [result]; the statements of the script run in
    a state-and-error monad whose state is the trace list of [fig].  In the
    main embedding the trace constructors always succeed; section
    [Validation] embeds the layer loop and the script again with the check
    [go.Bar] makes on the marker colour.

    Layout.  [fig.update_layout] adds no trace; the layout it sets is given
    as a function of [layer_names].

    Not embedded: [fig.write_image], the trace attributes that carry the same
    literal in every trace of a kind ([orientation], [showlegend],
    [textposition], [textfont], [line]) and the layout flags that only style
    the axes ([showgrid], [showticklabels], [zeroline], [tickfont], the
    background colours). *)

From Stdlib Require Import List String ZArith QArith Qabs Bool Lia Lqa.
From Stdlib Require Import Uint63 PrimFloat SpecFloat FloatOps.
Import ListNotations.

Local Open Scope Z_scope.

(** ** Python primitives *)

Module Py.

Inductive exn : Type :=
| ValueError
| IndexError
| ZeroDivisionError.

Inductive result (A : Type) : Type :=
| Ok (a : A)
| Raise (e : exn).
Arguments Ok {A} a.
Arguments Raise {A} e.

Definition rbind {A B} (r : result A) (k : A -> result B) : result B :=
  match r with
  | Ok a => k a
  | Raise e => Raise e
  end.

(** [len(l)] *)
Definition len {A} (l : list A) : Z := Z.of_nat (List.length l).

(** [list(range(n))] *)
Definition range (n : Z) : list Z := map Z.of_nat (seq 0 (Z.to_nat n)).

(** [enumerate(l)] *)
Fixpoint enumerate_from {A} (i : Z) (l : list A) : list (Z * A) :=
  match l with
  | [] => []
  | a :: l' => (i, a) :: enumerate_from (i + 1) l'
  end.
Definition enumerate {A} (l : list A) : list (Z * A) := enumerate_from 0 l.

(** [zip(a, b, c)] stops at the shortest argument. *)
Fixpoint zip3 {A B C} (a : list A) (b : list B) (c : list C)
  : list (A * B * C) :=
  match a, b, c with
  | x :: a', y :: b', z :: c' => (x, y, z) :: zip3 a' b' c'
  | _, _, _ => []
  end.

(** [l[i]]: a negative index counts from the end, an index out of range
    raises [IndexError]. *)
Definition getitem {A} (l : list A) (i : Z) : result A :=
  let k := if i <? 0 then i + len l else i in
  if k <? 0 then Raise IndexError
  else match nth_error l (Z.to_nat k) with
       | Some a => Ok a
       | None => Raise IndexError
       end.

(** [s in l] *)
Definition contains (s : string) (l : list string) : bool :=
  existsb (String.eqb s) l.

(** [l.index(s)]: position of the first element equal to [s], [ValueError]
    when there is none. *)
Fixpoint index_from (i : Z) (l : list string) (s : string) : result Z :=
  match l with
  | [] => Raise ValueError
  | a :: l' => if String.eqb a s then Ok i else index_from (i + 1) l' s
  end.
Definition index (l : list string) (s : string) : result Z :=
  index_from 0 l s.

(** [a / b] on numbers *)
Definition truediv (a b : Q) : result Q :=
  if Qeq_bool b 0 then Raise ZeroDivisionError else Ok (a / b)%Q.

End Py.
Import Py.

(** ** Input tables *)

(** An element of [layers_data]: [{"name": .., "components": [..], "color": ..}] *)
Record layer : Type := mkLayer {
  name : string;
  components : list string;
  color : string
}.

(** An element of [flow_connections]: [(from_layer, to_layer, protocol, x_pos)] *)
Definition connection : Type := (string * string * string * Q)%type.

(** ** Traces *)

Inductive marker_symbol : Type := circle | triangle_down.

Inductive scatter_mode : Type := lines_markers | text_only.

Inductive hover : Type :=
| hoverinfo_skip
| hovertemplate (s : string).

(** [go.Bar(x=.., y=.., base=.., marker=dict(color=.., opacity=..), text=.., ..)] *)
Record bar : Type := mkBar {
  bar_x : list Q;
  bar_y : list string;
  bar_base : option (list Q);
  bar_color : string;
  bar_opacity : Q;
  bar_text : option (list string);
  bar_hover : hover
}.

(** [go.Scatter(x=.., y=.., mode=.., marker=dict(symbol=.., size=..), text=.., ..)] *)
Record scatter : Type := mkScatter {
  sc_x : list Q;
  sc_y : list string;
  sc_mode : scatter_mode;
  sc_symbol : list marker_symbol;
  sc_size : list Z;
  sc_text : option (list string);
  sc_hover : hover
}.

Inductive trace : Type :=
| Bar (b : bar)
| Scatter (s : scatter).

(** The state of the script: the traces of [fig], in the order added. *)
Definition figure : Type := list trace.

(** ** The monad of the script's statements *)

Definition M (A : Type) : Type := figure -> result (A * figure).

Definition ret {A} (a : A) : M A := fun fig => Ok (a, fig).

Definition bind {A B} (m : M A) (k : A -> M B) : M B :=
  fun fig =>
    match m fig with
    | Ok (a, fig') => k a fig'
    | Raise e => Raise e
    end.

Definition lift {A} (r : result A) : M A :=
  fun fig =>
    match r with
    | Ok a => Ok (a, fig)
    | Raise e => Raise e
    end.

Declare Scope script_scope.
Delimit Scope script_scope with script.
Notation "x <- m ;; k" := (bind m (fun x => k))
  (at level 61, m at next level, right associativity) : script_scope.
Notation "m ;; k" := (bind m (fun _ => k))
  (at level 61, right associativity) : script_scope.
Local Open Scope script_scope.

(** [fig = go.Figure()] *)
Definition new_figure : M unit := fun _ => Ok (tt, []).

(** [fig.add_trace(t)] *)
Definition add_trace (t : trace) : M unit := fun fig => Ok (tt, fig ++ [t]).

(** [for a in l: body] *)
Fixpoint for_each {A} (l : list A) (body : A -> M unit) : M unit :=
  match l with
  | [] => ret tt
  | a :: l' => body a ;; for_each l' body
  end.

(** ** The script *)

Local Open Scope Q_scope.

(** Lines 19-20. *)
Definition y_positions (layers_data : list layer) : list Z :=
  rev (range (len layers_data)).

(** Lines 27-34, the trace that is built when [go.Bar] accepts the colour;
    [add_bar] adds the check of the colour. *)
Definition background_bar (l : layer) : trace :=
  Bar {| bar_x := [10];
         bar_y := [name l];
         bar_base := None;
         bar_color := color l;
         bar_opacity := 0.3;
         bar_text := None;
         bar_hover := hoverinfo_skip |}.

(** Line 41, in exact arithmetic; [Binary64.x_offset] is the value the
    interpreter computes. *)
Definition x_offset (j : Z) (component_width : Q) : Q :=
  1 + (inject_Z j * component_width) + (component_width / 2).

(** Lines 43-54, in exact arithmetic and with the colour accepted;
    [Binary64.component_bar] has the numbers the interpreter computes and
    [add_bar] the check of the colour. *)
Definition component_bar (l : layer) (component_width : Q)
    (j : Z) (component : string) : trace :=
  Bar {| bar_x := [component_width * 0.8];
         bar_y := [name l];
         bar_base := Some [x_offset j component_width - (component_width * 0.4)];
         bar_color := color l;
         bar_opacity := 0.8;
         bar_text := Some [component];
         bar_hover := hovertemplate (component ++ "<extra></extra>") |}.

(** Lines 37-38, in exact arithmetic; [Binary64.component_width] is the value
    the interpreter computes. *)
Definition component_width (l : layer) : result Q :=
  let num_components := len (components l) in
  truediv 8 (inject_Z (Z.max num_components 1)).

(** Lines 23-54: the body of the loop over [enumerate(layers_data)]. *)
Definition layer_body (y_positions : list Z) (il : Z * layer) : M unit :=
  let '(i, l) := il in
  y_pos <- lift (getitem y_positions i) ;;
  add_trace (background_bar l) ;;
  component_width <- lift (component_width l) ;;
  for_each (enumerate (components l))
    (fun jc => let '(j, component) := jc in
               add_trace (component_bar l component_width j component)).

(** Lines 74-86. *)
Definition connector (from_layer to_layer protocol : string) (x_pos : Q)
    : trace :=
  Scatter {| sc_x := [x_pos; x_pos];
             sc_y := [from_layer; to_layer];
             sc_mode := lines_markers;
             sc_symbol := [circle; triangle_down];
             sc_size := [4%Z; 8%Z];
             sc_text := None;
             sc_hover := hovertemplate (protocol ++ "<extra></extra>") |}.

(** Lines 68-86: the body of the loop over [flow_connections]. *)
Definition connection_body (layer_names : list string) (c : connection)
    : M unit :=
  let '(from_layer, to_layer, protocol, x_pos) := c in
  if contains from_layer layer_names && contains to_layer layer_names then
    from_idx <- lift (index layer_names from_layer) ;;
    to_idx <- lift (index layer_names to_layer) ;;
    add_trace (connector from_layer to_layer protocol x_pos)
  else ret tt.

(** Lines 94-102. *)
Definition label (protocol : string) (x_pos : Q) (y_pos : string) : trace :=
  Scatter {| sc_x := [x_pos];
             sc_y := [y_pos];
             sc_mode := text_only;
             sc_symbol := [];
             sc_size := [];
             sc_text := Some [protocol];
             sc_hover := hoverinfo_skip |}.

(** Lines 93-102: the body of the loop over the zipped label tables. *)
Definition label_body (ip : Z * (string * Q * string)) : M unit :=
  let '(i, (protocol, x_pos, y_pos)) := ip in
  add_trace (label protocol x_pos y_pos).

(** Lines 16-102 with the tables as parameters. *)
Definition script (layers_data : list layer)
    (flow_connections : list connection)
    (protocol_labels : list string) (x_label_pos : list Q)
    (y_label_pos : list string) : M unit :=
  new_figure ;;
  let y_positions := y_positions layers_data in
  for_each (enumerate layers_data) (layer_body y_positions) ;;
  let layer_names := map name layers_data in
  for_each flow_connections (connection_body layer_names) ;;
  for_each (enumerate (zip3 protocol_labels x_label_pos y_label_pos))
    label_body.

(** The traces of [fig] after the script ran, whatever [fig] held before. *)
Definition run_script (layers_data : list layer)
    (flow_connections : list connection)
    (protocol_labels : list string) (x_label_pos : list Q)
    (y_label_pos : list string) (before : figure) : result figure :=
  match script layers_data flow_connections protocol_labels x_label_pos
          y_label_pos before with
  | Ok (_, fig) => Ok fig
  | Raise e => Raise e
  end.

(** Lines 23-24: the [y_pos] bound for each layer, paired with the layer's
    name, in iteration order. *)
Fixpoint collect {A B} (f : A -> result B) (l : list A) : result (list B) :=
  match l with
  | [] => Ok []
  | a :: l' => rbind (f a) (fun b => rbind (collect f l') (fun bs => Ok (b :: bs)))
  end.

Definition slots (layers_data : list layer) : result (list (string * Z)) :=
  let y_positions := y_positions layers_data in
  collect (fun il : Z * layer =>
             let '(i, l) := il in
             rbind (getitem y_positions i) (fun y_pos => Ok (name l, y_pos)))
          (enumerate layers_data).

(** ** The literal tables of the script *)

Local Open Scope string_scope.

Definition layers_data : list layer :=
  [ mkLayer "Client Apps" ["Web Browser"; "Mobile App"; "Desktop App"] "#1FB8CD";
    mkLayer "Load Balancer" ["NGINX/AWS ALB"] "#DB4545";
    mkLayer "WebSocket Srvs" ["Socket.io Srv1"; "Socket.io Srv2"; "Socket.io SrvN"] "#2E8B57";
    mkLayer "App Servers" ["Node.js+Exp 1"; "Node.js+Exp 2"; "Node.js+Exp N"] "#5D878F";
    mkLayer "Redis Cache" ["Redis Cluster"] "#D2BA4C";
    mkLayer "Database" ["MongoDB"; "PostgreSQL"] "#B4413C";
    mkLayer "File Storage" ["AWS S3"] "#964325" ].

Definition flow_connections : list connection :=
  [ ("Client Apps", "Load Balancer", "HTTPS/WSS", 9.5);
    ("Load Balancer", "WebSocket Srvs", "WSS", 9.5);
    ("WebSocket Srvs", "App Servers", "HTTP/RPC", 9.5);
    ("App Servers", "Redis Cache", "Redis Proto", 9.5);
    ("App Servers", "Database", "TCP/SQL", 7.5);
    ("App Servers", "File Storage", "HTTPS", 5.5) ].

Definition protocol_labels : list string :=
  ["HTTPS/WSS"; "WSS"; "HTTP/RPC"; "Redis Proto"; "TCP/SQL"; "HTTPS"].

Definition x_label_pos : list Q := [9.7; 9.7; 9.7; 9.7; 7.7; 5.7].

Definition y_label_pos : list string :=
  ["Load Balancer"; "WebSocket Srvs"; "App Servers"; "Redis Cache";
   "Database"; "File Storage"].

Local Close Scope string_scope.


(** ** Closed forms of what the loops add *)

(** The value of [component_width] for a layer (lines 37-38). *)
Definition width_of (l : layer) : Q :=
  8 / inject_Z (Z.max (len (components l)) 1).

(** Traces added by one iteration of the layer loop. *)
Definition layer_traces (l : layer) : list trace :=
  background_bar l ::
  map (fun jc : Z * string => component_bar l (width_of l) (fst jc) (snd jc))
      (enumerate (components l)).

(** Traces added by one iteration of the connection loop. *)
Definition connection_traces (layer_names : list string) (c : connection)
    : list trace :=
  let '(from_layer, to_layer, protocol, x_pos) := c in
  if contains from_layer layer_names && contains to_layer layer_names
  then [connector from_layer to_layer protocol x_pos]
  else [].

(** Traces added by the label loop. *)
Definition label_traces (protocol_labels : list string)
    (x_label_pos : list Q) (y_label_pos : list string) : list trace :=
  map (fun pxy : string * Q * string =>
         let '(protocol, x_pos, y_pos) := pxy in label protocol x_pos y_pos)
      (zip3 protocol_labels x_label_pos y_label_pos).


Definition is_connector (t : trace) : bool :=
  match t with
  | Scatter s => match sc_mode s with lines_markers => true | _ => false end
  | Bar _ => false
  end.

Definition is_background (t : trace) : bool :=
  match t with
  | Bar b => match bar_base b with None => true | Some _ => false end
  | Scatter _ => false
  end.








(** Line 69: both endpoints are declared layer names. *)
Definition resolves (layer_names : list string) (c : connection) : bool :=
  let '(from_layer, to_layer, _, _) := c in
  contains from_layer layer_names && contains to_layer layer_names.

(** The connector drawn for a connection that resolves. *)
Definition connector_of (c : connection) : trace :=
  let '(from_layer, to_layer, protocol, x_pos) := c in
  connector from_layer to_layer protocol x_pos.

(** The [y] attribute of a trace: the rows it is drawn on. *)
Definition trace_y (t : trace) : list string :=
  match t with
  | Bar b => bar_y b
  | Scatter s => sc_y s
  end.


(** ** The layer loop with the colour check of [go.Bar] *)

Section Validation.

(** plotly's check of a marker colour given as a string; [go.Bar] raises
    [ValueError] for a string the check rejects.  The colours that are
    literals of the script (['black'], ['white']) pass it. *)
Variable valid_color : string -> bool.

(** [fig.add_trace(go.Bar(.., marker=dict(color=layer["color"], ..), ..))] *)
Definition add_bar (t : trace) : M unit :=
  match t with
  | Bar b =>
      if valid_color (bar_color b) then add_trace t
      else lift (Raise ValueError)
  | Scatter _ => add_trace t
  end.

(** Lines 23-54. *)
Definition layer_body_checked (y_positions : list Z) (il : Z * layer)
    : M unit :=
  let '(i, l) := il in
  y_pos <- lift (getitem y_positions i) ;;
  add_bar (background_bar l) ;;
  component_width <- lift (component_width l) ;;
  for_each (enumerate (components l))
    (fun jc => let '(j, component) := jc in
               add_bar (component_bar l component_width j component)).

(** Lines 16-102. *)
Definition script_checked (layers_data : list layer)
    (flow_connections : list connection)
    (protocol_labels : list string) (x_label_pos : list Q)
    (y_label_pos : list string) : M unit :=
  new_figure ;;
  let y_positions := y_positions layers_data in
  for_each (enumerate layers_data) (layer_body_checked y_positions) ;;
  let layer_names := map name layers_data in
  for_each flow_connections (connection_body layer_names) ;;
  for_each (enumerate (zip3 protocol_labels x_label_pos y_label_pos))
    label_body.

Definition run_script_checked (layers_data : list layer)
    (flow_connections : list connection)
    (protocol_labels : list string) (x_label_pos : list Q)
    (y_label_pos : list string) (before : figure) : result figure :=
  match script_checked layers_data flow_connections protocol_labels
          x_label_pos y_label_pos before with
  | Ok (_, fig) => Ok fig
  | Raise e => Raise e
  end.

End Validation.

(** A check that accepts the strings starting with [#], for the examples. *)
Definition hash_color (s : string) : bool := String.prefix "#" s.

(** ** The layer loop in binary64 (lines 23-54) *)

Set Warnings "-inexact-float".

Module Binary64.

Local Open Scope float_scope.

(** [float(n)] for an [int] that is a length or an index of a list
    ([0 <= n < 2^63]); exact below [2^53]. *)
Definition float_of_int (n : Z) : float := PrimFloat.of_uint63 (Uint63.of_Z n).

(** [a / b] on two [int]s: [ZeroDivisionError] when the integer [b] is 0,
    else the quotient as a float (for operands below [2^53] the binary64
    division of the two converted operands). *)
Definition truediv (a b : Z) : result float :=
  if (b =? 0)%Z then Raise ZeroDivisionError
  else Ok (float_of_int a / float_of_int b).


(** [go.Bar(...)] with its numbers as floats. *)
Record bar : Type := mkBar {
  bar_x : list float;
  bar_y : list string;
  bar_base : option (list float);
  bar_color : string;
  bar_opacity : float;
  bar_text : option (list string);
  bar_hover : hover
}.

(** The bars of [fig]; the layer loop adds no other trace. *)
Definition figure : Type := list bar.

Definition M (A : Type) : Type := figure -> result (A * figure).

Definition ret {A} (a : A) : M A := fun fig => Ok (a, fig).

Definition bind {A B} (m : M A) (k : A -> M B) : M B :=
  fun fig =>
    match m fig with
    | Ok (a, fig') => k a fig'
    | Raise e => Raise e
    end.

Definition lift {A} (r : result A) : M A :=
  fun fig =>
    match r with
    | Ok a => Ok (a, fig)
    | Raise e => Raise e
    end.

Declare Scope binary64_scope.
Notation "x <- m ;; k" := (bind m (fun x => k))
  (at level 61, m at next level, right associativity) : binary64_scope.
Notation "m ;; k" := (bind m (fun _ => k))
  (at level 61, right associativity) : binary64_scope.
Local Open Scope binary64_scope.

(** [fig.add_trace(t)] *)
Definition add_trace (t : bar) : M unit := fun fig => Ok (tt, fig ++ [t]).

(** [for a in l: body] *)
Fixpoint for_each {A} (l : list A) (body : A -> M unit) : M unit :=
  match l with
  | [] => ret tt
  | a :: l' => body a ;; for_each l' body
  end.

(** Lines 27-34. *)
Definition background_bar (l : layer) : bar :=
  {| bar_x := [10];
     bar_y := [name l];
     bar_base := None;
     bar_color := color l;
     bar_opacity := 0.3;
     bar_text := None;
     bar_hover := hoverinfo_skip |}.

(** Line 41. *)
Definition x_offset (j : Z) (component_width : float) : float :=
  1 + (float_of_int j * component_width) + (component_width / 2).

(** Lines 43-54. *)
Definition component_bar (l : layer) (component_width : float)
    (j : Z) (component : string) : bar :=
  {| bar_x := [component_width * 0.8];
     bar_y := [name l];
     bar_base := Some [x_offset j component_width - (component_width * 0.4)];
     bar_color := color l;
     bar_opacity := 0.8;
     bar_text := Some [component];
     bar_hover := hovertemplate (component ++ "<extra></extra>") |}.

(** Lines 37-38. *)
Definition component_width (l : layer) : result float :=
  let num_components := len (components l) in
  truediv 8 (Z.max num_components 1).

(** Lines 23-54: the body of the loop over [enumerate(layers_data)]. *)
Definition layer_body (y_positions : list Z) (il : Z * layer) : M unit :=
  let '(i, l) := il in
  y_pos <- lift (getitem y_positions i) ;;
  add_trace (background_bar l) ;;
  component_width <- lift (component_width l) ;;
  for_each (enumerate (components l))
    (fun jc => let '(j, component) := jc in
               add_trace (component_bar l component_width j component)).



End Binary64.







(** ** Layout (lines 105-123) *)

Inductive category_order : Type := category_array.

Inductive bar_mode : Type := overlay.

(** [fig.update_layout(title=.., xaxis=dict(range=..), yaxis=dict(categoryorder=..,
    categoryarray=..), barmode=..)] *)
Record layout : Type := mkLayout {
  title : string;
  xaxis_range : Q * Q;
  yaxis_categoryorder : category_order;
  yaxis_categoryarray : list string;
  barmode : bar_mode
}.

Definition update_layout (layer_names : list string) : layout :=
  {| title := "Collab Doc Platform Architecture";
     xaxis_range := (0%Q, 11%Q);
     yaxis_categoryorder := category_array;
     yaxis_categoryarray := layer_names;
     barmode := overlay |}.

(** The layout of the figure after line 123; [layer_names] is bound at
    line 66. *)
Definition script_layout (layers_data : list layer) : layout :=
  let layer_names := map name layers_data in
  update_layout layer_names.


(** ** Scenarios *)

Local Open Scope string_scope.

(** The two-layer scenario: [A] with two components above [B] with one. *)
Definition scenario_layers : list layer :=
  [ mkLayer "A" ["comp1"; "comp2"] "#000000";
    mkLayer "B" ["comp1"] "#FFFFFF" ].

(** A connection between the two layers, and one to an undeclared layer. *)
Definition scenario_connections : list connection :=
  [ ("A", "B", "HTTP", 9.5%Q); ("A", "C", "TCP", 7.5%Q) ].

(** Two layers declared under one name. *)
Definition duplicate_layers : list layer :=
  [ mkLayer "A" ["comp1"] "#000000";
    mkLayer "A" ["comp2"; "comp3"] "#FFFFFF" ].



Local Close Scope string_scope.

Local Close Scope Q_scope.
Local Open Scope Z_scope.

(** ** Lemmas on the Python primitives *)

Section Primitives.

Context {A : Type}.

Lemma len_nonneg (l : list A) : 0 <= len l.
Proof. unfold len; lia. Qed.

Lemma len_cons (a : A) (l : list A) : len (a :: l) = len l + 1.
Proof. unfold len; cbn [List.length]; lia. Qed.

Lemma nth_error_enumerate_from (l : list A) :
  forall (s : Z) (k : nat),
    nth_error (enumerate_from s l) k =
    option_map (fun a => (s + Z.of_nat k, a)) (nth_error l k).
Proof.
  induction l as [|a l IH]; intros s k.
  - destruct k; reflexivity.
  - destruct k as [|k]; cbn [enumerate_from nth_error option_map].
    + f_equal; f_equal; lia.
    + rewrite IH. destruct (nth_error l k); cbn; [|reflexivity].
      f_equal; f_equal; lia.
Qed.

Lemma enumerate_from_snd (l : list A) :
  forall s, map snd (enumerate_from s l) = l.
Proof. induction l; intros; cbn; [|rewrite IHl]; reflexivity. Qed.

Lemma enumerate_from_bounds (l : list A) :
  forall s, Forall (fun ia => s <= fst ia < s + len l) (enumerate_from s l).
Proof.
  induction l as [|a l IH]; intros s; cbn [enumerate_from]; constructor.
  - cbn [fst]. rewrite len_cons. pose proof (len_nonneg l). lia.
  - eapply Forall_impl; [|apply IH]. cbn beta. intros ia H.
    rewrite len_cons. lia.
Qed.

Lemma getitem_nth_error (l : list A) (k : nat) (a : A) :
  nth_error l k = Some a -> getitem l (Z.of_nat k) = Ok a.
Proof.
  intros H. unfold getitem.
  destruct (Z.of_nat k <? 0) eqn:E; [apply Z.ltb_lt in E; lia|].
  cbn zeta. rewrite E, Nat2Z.id, H. reflexivity.
Qed.

End Primitives.

Lemma range_nth_error (n : Z) (k : nat) :
  (k < Z.to_nat n)%nat -> nth_error (range n) k = Some (Z.of_nat k).
Proof.
  intros H. unfold range.
  rewrite nth_error_map, nth_error_seq.
  destruct (Nat.ltb_spec k (Z.to_nat n)); [reflexivity|lia].
Qed.

Lemma range_length (n : Z) : List.length (range n) = Z.to_nat n.
Proof. unfold range. now rewrite length_map, length_seq. Qed.

Lemma y_positions_nth_error (layers : list layer) (k : nat) :
  (k < List.length layers)%nat ->
  nth_error (y_positions layers) k = Some (len layers - 1 - Z.of_nat k).
Proof.
  intros H. unfold y_positions, len.
  rewrite nth_error_rev, range_length, Nat2Z.id.
  destruct (Nat.ltb_spec k (List.length layers)); [|lia].
  rewrite range_nth_error by (rewrite Nat2Z.id; lia).
  f_equal. lia.
Qed.

Lemma y_positions_getitem (layers : list layer) (i : Z) :
  0 <= i < len layers ->
  getitem (y_positions layers) i = Ok (len layers - 1 - i).
Proof.
  intros H. unfold len in H.
  rewrite <- (Z2Nat.id i) by lia.
  rewrite (getitem_nth_error _ _ (len layers - 1 - Z.of_nat (Z.to_nat i))).
  - reflexivity.
  - apply y_positions_nth_error. lia.
Qed.

Lemma contains_In (s : string) (l : list string) :
  contains s l = true <-> In s l.
Proof.
  unfold contains. rewrite existsb_exists. split.
  - intros (x & Hx & E). apply String.eqb_eq in E. now subst.
  - intros H. exists s. split; [assumption|apply String.eqb_refl].
Qed.

Lemma index_from_In (l : list string) (s : string) :
  In s l -> forall i, exists k, index_from i l s = Ok k.
Proof.
  induction l as [|a l IH]; intros H i; [destruct H|].
  cbn [index_from]. destruct (String.eqb a s) eqn:E; [eauto|].
  destruct H as [H|H]; [subst; rewrite String.eqb_refl in E; discriminate|].
  apply IH; assumption.
Qed.

Lemma truediv_max (a : Q) (n : Z) :
  truediv a (inject_Z (Z.max n 1)) = Ok (a / inject_Z (Z.max n 1))%Q.
Proof.
  unfold truediv.
  destruct (Qeq_bool (inject_Z (Z.max n 1)) 0) eqn:E; [|reflexivity].
  apply Qeq_bool_eq in E. unfold Qeq, inject_Z in E. cbn in E. lia.
Qed.

Lemma component_width_ok (l : layer) : component_width l = Ok (width_of l).
Proof. unfold component_width, width_of. apply truediv_max. Qed.

Lemma zip3_length {A B C} (a : list A) :
  forall (b : list B) (c : list C),
    List.length (zip3 a b c)
    = Nat.min (List.length a) (Nat.min (List.length b) (List.length c)).
Proof.
  induction a as [|x a IH]; intros b c; [reflexivity|].
  destruct b as [|y b]; [reflexivity|].
  destruct c as [|z c]; [cbn [zip3 List.length]; lia|].
  cbn [zip3 List.length]. rewrite IH. lia.
Qed.

Lemma zip3_nth_error {A B C} (a : list A) :
  forall (b : list B) (c : list C) (k : nat) (x : A) (y : B) (z : C),
    nth_error a k = Some x -> nth_error b k = Some y ->
    nth_error c k = Some z ->
    nth_error (zip3 a b c) k = Some (x, y, z).
Proof.
  induction a as [|x0 a IH]; intros b c k x y z Ha Hb Hc.
  - destruct k; discriminate.
  - destruct b as [|y0 b]; [destruct k; discriminate|].
    destruct c as [|z0 c]; [destruct k; discriminate|].
    destruct k as [|k]; cbn in *.
    + congruence.
    + now apply IH.
Qed.

(** ** Lemmas on the loops *)

Local Open Scope script_scope.

Lemma for_each_adds {A} (P : A -> Prop) (f : A -> list trace)
    (body : A -> M unit) :
  (forall a fig, P a -> body a fig = Ok (tt, fig ++ f a)) ->
  forall l fig, Forall P l ->
    for_each l body fig = Ok (tt, fig ++ flat_map f l).
Proof.
  intros Hbody l. induction l as [|a l IH]; intros fig HP.
  - cbn. now rewrite app_nil_r.
  - inversion HP as [|? ? Ha Hl]; subst.
    cbn [for_each flat_map]. unfold bind at 1.
    rewrite (Hbody a fig Ha), (IH _ Hl), <- app_assoc. reflexivity.
Qed.

Lemma flat_map_single {A B} (g : A -> B) (l : list A) :
  flat_map (fun a => [g a]) l = map g l.
Proof. induction l as [|a l IH]; cbn; [|rewrite IH]; reflexivity. Qed.

Lemma component_loop (l : layer) (w : Q) (fig : figure) :
  forall (cs : list (Z * string)),
    for_each cs
      (fun jc => let '(j, component) := jc in
                 add_trace (component_bar l w j component)) fig
    = Ok (tt, fig ++ map (fun jc => component_bar l w (fst jc) (snd jc)) cs).
Proof.
  intros cs.
  rewrite (for_each_adds (fun _ => True)
             (fun jc => [component_bar l w (fst jc) (snd jc)])).
  - now rewrite flat_map_single.
  - intros [j c] fig' _. reflexivity.
  - apply Forall_forall. trivial.
Qed.

Lemma layer_body_adds (layers : list layer) (i : Z) (l : layer)
    (fig : figure) :
  0 <= i < len layers ->
  layer_body (y_positions layers) (i, l) fig = Ok (tt, fig ++ layer_traces l).
Proof.
  intros Hi. unfold layer_body, bind, lift.
  rewrite (y_positions_getitem layers i Hi), component_width_ok.
  change (add_trace (background_bar l) fig)
    with (Ok (tt, fig ++ [background_bar l])).
  cbv iota beta. rewrite component_loop. unfold layer_traces.
  now rewrite <- app_assoc.
Qed.

Lemma layer_loop (layers : list layer) (fig : figure) :
  for_each (enumerate layers) (layer_body (y_positions layers)) fig
  = Ok (tt, fig ++ flat_map layer_traces layers).
Proof.
  rewrite (for_each_adds (fun il => 0 <= fst il < len layers)
             (fun il => layer_traces (snd il))).
  - rewrite flat_map_concat_map, <- (map_map snd layer_traces).
    unfold enumerate. now rewrite enumerate_from_snd, <- flat_map_concat_map.
  - intros [i l] fig' H. now apply layer_body_adds.
  - apply (enumerate_from_bounds layers 0).
Qed.

Lemma connection_body_adds (layer_names : list string) (c : connection)
    (fig : figure) :
  connection_body layer_names c fig
  = Ok (tt, fig ++ connection_traces layer_names c).
Proof.
  destruct c as [[[from_layer to_layer] protocol] x_pos].
  unfold connection_body, connection_traces.
  destruct (contains from_layer layer_names) eqn:Hf;
    [destruct (contains to_layer layer_names) eqn:Ht|];
    cbn [andb]; try (unfold ret; now rewrite app_nil_r).
  apply contains_In in Hf, Ht.
  destruct (index_from_In _ _ Hf 0) as [kf Ef].
  destruct (index_from_In _ _ Ht 0) as [kt Et].
  unfold bind, lift, index. rewrite Ef, Et. reflexivity.
Qed.

Lemma connection_loop (layer_names : list string) (cs : list connection)
    (fig : figure) :
  for_each cs (connection_body layer_names) fig
  = Ok (tt, fig ++ flat_map (connection_traces layer_names) cs).
Proof.
  apply (for_each_adds (fun _ => True)).
  - intros c fig' _. apply connection_body_adds.
  - apply Forall_forall. trivial.
Qed.

Lemma label_loop (ps : list string) (xs : list Q) (ys : list string)
    (fig : figure) :
  for_each (enumerate (zip3 ps xs ys)) label_body fig
  = Ok (tt, fig ++ label_traces ps xs ys).
Proof.
  rewrite (for_each_adds (fun _ => True)
             (fun ip : Z * (string * Q * string) =>
                let '(protocol, x_pos, y_pos) := snd ip in
                [label protocol x_pos y_pos])).
  - replace (label_traces ps xs ys) with
      (flat_map (fun ip : Z * (string * Q * string) =>
                   let '(protocol, x_pos, y_pos) := snd ip in
                   [label protocol x_pos y_pos])
                (enumerate (zip3 ps xs ys))); [reflexivity|].
    unfold label_traces, enumerate.
    generalize 0. induction (zip3 ps xs ys) as [|[[p x] y] l IH]; intros s.
    + reflexivity.
    + cbn [enumerate_from flat_map map snd app]. now rewrite IH.
  - intros [i [[p x] y]] fig' _. reflexivity.
  - apply Forall_forall. trivial.
Qed.

(** The figure the script builds, whatever [fig] held before. *)
Lemma script_traces (layers : list layer) (cs : list connection)
    (ps : list string) (xs : list Q) (ys : list string) (before : figure) :
  run_script layers cs ps xs ys before
  = Ok (flat_map layer_traces layers
        ++ flat_map (connection_traces (map name layers)) cs
        ++ label_traces ps xs ys).
Proof.
  unfold run_script, script, bind, new_figure.
  rewrite layer_loop, connection_loop, label_loop.
  cbn [app]. now rewrite <- app_assoc.
Qed.

(** ** Slot assignment (lines 19-24) *)

Lemma collect_map {A B} (P : A -> Prop) (f : A -> result B) (g : A -> B) :
  (forall a, P a -> f a = Ok (g a)) ->
  forall l, Forall P l -> collect f l = Ok (map g l).
Proof.
  intros Hf l. induction l as [|a l IH]; intros HP; [reflexivity|].
  inversion HP as [|? ? Ha Hl]; subst.
  cbn [collect map]. rewrite (Hf a Ha), (IH Hl). reflexivity.
Qed.

Lemma slots_closed_form (layers : list layer) :
  slots layers =
  Ok (map (fun il : Z * layer => (name (snd il), len layers - 1 - fst il))
          (enumerate layers)).
Proof.
  unfold slots.
  apply (collect_map (fun il => 0 <= fst il < len layers)).
  - intros [i l] H. cbn [fst snd] in *.
    now rewrite (y_positions_getitem layers i H).
  - apply (enumerate_from_bounds layers 0).
Qed.

Lemma slots_nth_error (layers : list layer) (k : nat) :
  nth_error
    (map (fun il : Z * layer => (name (snd il), len layers - 1 - fst il))
         (enumerate layers)) k
  = option_map (fun l => (name l, len layers - 1 - Z.of_nat k))
               (nth_error layers k).
Proof.
  unfold enumerate. rewrite nth_error_map, nth_error_enumerate_from.
  destruct (nth_error layers k); reflexivity.
Qed.

(** C1. For a non-empty list of layers with unique names, the slot assignment
    of the layer loop gives the layer declared at position [k] the display
    index [count - 1 - k]; it is a bijection between the layer names and the
    indices [0 .. count - 1]; the first declared layer gets [count - 1] and
    the last declared layer gets [0]. *)
Theorem slots_bijection (layers : list layer) :
  layers <> [] ->
  NoDup (map name layers) ->
  exists sl : list (string * Z),
    slots layers = Ok sl /\
    (forall (k : nat) (l : layer),
        nth_error layers k = Some l ->
        nth_error sl k = Some (name l, len layers - 1 - Z.of_nat k)) /\
    (forall nm d, In (nm, d) sl ->
        In nm (map name layers) /\ 0 <= d <= len layers - 1) /\
    (forall nm, In nm (map name layers) -> exists! d, In (nm, d) sl) /\
    (forall d, 0 <= d <= len layers - 1 -> exists! nm, In (nm, d) sl) /\
    (forall l, hd_error layers = Some l -> In (name l, len layers - 1) sl) /\
    (forall l, nth_error layers (List.length layers - 1) = Some l ->
        In (name l, 0) sl).
Proof.
  intros Hne Hnd.
  eexists. split; [apply slots_closed_form|].
  set (sl := map _ (enumerate layers)).
  assert (Hnth : forall k l, nth_error layers k = Some l ->
              nth_error sl k = Some (name l, len layers - 1 - Z.of_nat k)).
  { intros k l H. unfold sl. now rewrite slots_nth_error, H. }
  assert (Hin : forall nm d, In (nm, d) sl ->
              exists k l, nth_error layers k = Some l /\ nm = name l /\
                          d = len layers - 1 - Z.of_nat k).
  { intros nm d H. apply In_nth_error in H. destruct H as [k H].
    unfold sl in H. rewrite slots_nth_error in H.
    destruct (nth_error layers k) as [l|] eqn:E; [|discriminate].
    cbn in H. injection H as <- <-. eauto. }
  assert (Hlt : forall k l, nth_error layers k = Some l ->
              (k < List.length layers)%nat).
  { intros k l H. apply nth_error_Some. congruence. }
  assert (Hname : forall k l, nth_error layers k = Some l ->
              nth_error (map name layers) k = Some (name l)).
  { intros k l H. now rewrite nth_error_map, H. }
  repeat split.
  - exact Hnth.
  - destruct (Hin _ _ H) as (k & l & Hk & -> & _).
    apply in_map. eapply nth_error_In; eassumption.
  - destruct (Hin _ _ H) as (k & l & Hk & _ & ->).
    apply Hlt in Hk. unfold len. lia.
  - destruct (Hin _ _ H) as (k & l & Hk & _ & ->). lia.
  - intros nm H. apply In_nth_error in H. destruct H as [k Hk].
    rewrite nth_error_map in Hk.
    destruct (nth_error layers k) as [l|] eqn:El; [|discriminate].
    cbn in Hk. injection Hk as <-.
    exists (len layers - 1 - Z.of_nat k). split.
    + eapply nth_error_In. apply Hnth. exact El.
    + intros d' Hd'. destruct (Hin _ _ Hd') as (k' & l' & Hk' & Hnm & ->).
      assert (k = k'); [|subst; reflexivity].
      apply (proj1 (NoDup_nth_error (map name layers)) Hnd).
      * rewrite length_map. eapply Hlt; eassumption.
      * rewrite (Hname _ _ El), (Hname _ _ Hk'). congruence.
  - intros d Hd.
    destruct (nth_error layers (Z.to_nat (len layers - 1 - d))) as [l|] eqn:El.
    + exists (name l). split.
      * eapply nth_error_In. rewrite (Hnth _ _ El). f_equal. f_equal. lia.
      * intros nm' Hnm'. destruct (Hin _ _ Hnm') as (k' & l' & Hk' & -> & Hd').
        assert (k' = Z.to_nat (len layers - 1 - d)) by lia. subst k'.
        congruence.
    + apply nth_error_None in El. unfold len in *. lia.
  - intros l H. destruct layers as [|l0 layers']; [discriminate|].
    cbn in H. injection H as <-.
    eapply nth_error_In. rewrite (Hnth 0%nat l0 eq_refl). f_equal. f_equal. lia.
  - intros l H. eapply nth_error_In. rewrite (Hnth _ _ H). f_equal. f_equal.
    destruct layers; [congruence|]. unfold len. cbn [List.length]. lia.
Qed.

(** The two-layer scenario: [slots = {A: 1, B: 0}]. *)
Lemma slots_bijection_witness :
  scenario_layers <> [] /\
  NoDup (map name scenario_layers) /\
  exists sl, slots scenario_layers = Ok sl /\
             nth_error sl 0 = Some ("A"%string, 1) /\
             nth_error sl 1 = Some ("B"%string, 0).
Proof.
  assert (H1 : scenario_layers <> []) by discriminate.
  assert (H2 : NoDup (map name scenario_layers)).
  { cbn. repeat constructor; cbn; intuition discriminate. }
  split; [exact H1|]. split; [exact H2|].
  destruct (slots_bijection scenario_layers H1 H2) as (sl & E & Hnth & _).
  exists sl. split; [exact E|]. split.
  - exact (Hnth 0%nat _ eq_refl).
  - exact (Hnth 1%nat _ eq_refl).
Defined.

(** ** Kinds of traces in the figure *)

Lemma filter_none {A} (p : A -> bool) (l : list A) :
  (forall a, In a l -> p a = false) -> filter p l = [].
Proof.
  induction l as [|a l IH]; intros H; [reflexivity|].
  cbn [filter]. rewrite (H a (or_introl eq_refl)).
  apply IH. intros b Hb. apply H. now right.
Qed.

Lemma filter_all {A} (p : A -> bool) (l : list A) :
  (forall a, In a l -> p a = true) -> filter p l = l.
Proof.
  induction l as [|a l IH]; intros H; [reflexivity|].
  cbn [filter]. rewrite (H a (or_introl eq_refl)). f_equal.
  apply IH. intros b Hb. apply H. now right.
Qed.

Lemma layer_traces_In (l : layer) (t : trace) :
  In t (layer_traces l) ->
  t = background_bar l \/
  exists j c, t = component_bar l (width_of l) j c.
Proof.
  unfold layer_traces. intros [<-|H]; [now left|right].
  apply in_map_iff in H. destruct H as ([j c] & <- & _). eauto.
Qed.

Lemma layers_traces_In (layers : list layer) (t : trace) :
  In t (flat_map layer_traces layers) ->
  exists l, In l layers /\
    (t = background_bar l \/ exists j c, t = component_bar l (width_of l) j c).
Proof.
  intros H. apply in_flat_map in H. destruct H as (l & Hl & Ht).
  exists l. split; [assumption|now apply layer_traces_In].
Qed.

Lemma connection_traces_filter (names : list string) (cs : list connection) :
  flat_map (connection_traces names) cs
  = map connector_of (filter (resolves names) cs).
Proof.
  induction cs as [|[[[f t] p] x] cs IH]; [reflexivity|].
  cbn [flat_map filter]. unfold connection_traces at 1, resolves at 1.
  destruct (contains f names && contains t names); cbn; now rewrite IH.
Qed.

Lemma connection_traces_In (names : list string) (cs : list connection)
    (t : trace) :
  In t (flat_map (connection_traces names) cs) ->
  exists c, In c cs /\ resolves names c = true /\ t = connector_of c.
Proof.
  rewrite connection_traces_filter. intros H.
  apply in_map_iff in H. destruct H as (c & <- & Hc).
  apply filter_In in Hc. destruct Hc. eauto.
Qed.

Lemma label_traces_In (ps : list string) (xs : list Q) (ys : list string)
    (t : trace) :
  In t (label_traces ps xs ys) <->
  exists p x y, In (p, x, y) (zip3 ps xs ys) /\ t = label p x y.
Proof.
  unfold label_traces. rewrite in_map_iff. split.
  - intros ([[p x] y] & <- & H). eauto.
  - intros (p & x & y & H & ->). exists (p, x, y). auto.
Qed.

Ltac trace_kind :=
  match goal with
  | H : In _ (flat_map layer_traces _) |- _ =>
      apply layers_traces_In in H;
      destruct H as (? & _ & [->|(? & ? & ->)]); reflexivity
  | H : In _ (flat_map (connection_traces _) _) |- _ =>
      apply connection_traces_In in H;
      destruct H as ([[[? ?] ?] ?] & _ & _ & ->); reflexivity
  | H : In _ (label_traces _ _ _) |- _ =>
      apply label_traces_In in H;
      destruct H as (? & ? & ? & _ & ->); reflexivity
  end.

Lemma figure_connectors (layers : list layer) (cs : list connection)
    (ps : list string) (xs : list Q) (ys : list string) :
  filter is_connector
    (flat_map layer_traces layers
     ++ flat_map (connection_traces (map name layers)) cs
     ++ label_traces ps xs ys)
  = flat_map (connection_traces (map name layers)) cs.
Proof.
  rewrite !filter_app.
  rewrite (filter_none is_connector (flat_map layer_traces layers))
    by (intros; trace_kind).
  rewrite (filter_none is_connector (label_traces ps xs ys))
    by (intros; trace_kind).
  rewrite filter_all by (intros; trace_kind).
  now rewrite app_nil_r.
Qed.


(** ** Connection resolution (lines 66-86) *)

Lemma resolves_In (names : list string) (f t p : string) (x : Q) :
  resolves names (f, t, p, x) = true <-> In f names /\ In t names.
Proof.
  unfold resolves. rewrite andb_true_iff, !contains_In. reflexivity.
Qed.

(** C2. The connection loop raises no error and adds, to the figure, one
    connector for each connection whose [from] and [to] names are both
    declared layer names and nothing for the others, in the order of the
    input list; so the connectors of the finished figure are the connectors of
    the resolving connections, in input order. *)
Theorem connection_resolution (layers : list layer) (cs : list connection)
    (ps : list string) (xs : list Q) (ys : list string) (fig : figure) :
  let names := map name layers in
  (forall f t p x,
      resolves names (f, t, p, x) = true <-> In f names /\ In t names) /\
  (forall c fig', resolves names c = false ->
      connection_body names c fig' = Ok (tt, fig')) /\
  (forall c fig', resolves names c = true ->
      connection_body names c fig' = Ok (tt, fig' ++ [connector_of c])) /\
  for_each cs (connection_body names) fig
    = Ok (tt, fig ++ map connector_of (filter (resolves names) cs)) /\
  exists out, run_script layers cs ps xs ys fig = Ok out /\
    filter is_connector out = map connector_of (filter (resolves names) cs).
Proof.
  intros names. split; [apply resolves_In|].
  split; [|split; [|split]].
  - intros [[[f t] p] x] fig' H. rewrite connection_body_adds.
    unfold connection_traces. unfold resolves in H. rewrite H.
    now rewrite app_nil_r.
  - intros [[[f t] p] x] fig' H. rewrite connection_body_adds.
    unfold connection_traces. unfold resolves in H. now rewrite H.
  - now rewrite connection_loop, connection_traces_filter.
  - eexists. split; [apply script_traces|].
    now rewrite figure_connectors, connection_traces_filter.
Qed.

(** The scenario: [A -> B] is drawn, [A -> C] is skipped. *)
Lemma connection_resolution_witness :
  exists out,
    run_script scenario_layers scenario_connections [] [] [] [] = Ok out /\
    filter is_connector out = [connector "A" "B" "HTTP" 9.5%Q].
Proof.
  destruct (connection_resolution scenario_layers scenario_connections
              [] [] [] []) as (_ & _ & _ & _ & out & E & H).
  exists out. split; [exact E|]. rewrite H. reflexivity.
Defined.

Lemma index_from_first (l : list string) (s : string) :
  forall i k, index_from i l s = Ok k ->
    i <= k /\
    nth_error l (Z.to_nat (k - i)) = Some s /\
    forall m, (m < Z.to_nat (k - i))%nat -> nth_error l m <> Some s.
Proof.
  induction l as [|a l IH]; intros i k H; [discriminate|].
  cbn [index_from] in H. destruct (String.eqb a s) eqn:E.
  - injection H as <-. apply String.eqb_eq in E. subst a.
    rewrite Z.sub_diag. cbn. repeat split; [lia|]. intros m Hm. lia.
  - apply IH in H. destruct H as (Hle & Hnth & Hfirst).
    replace (Z.to_nat (k - i)) with (S (Z.to_nat (k - (i + 1)))) by lia.
    repeat split; [lia|exact Hnth|].
    intros [|m] Hm; cbn.
    + intros [= ->]. rewrite String.eqb_refl in E. discriminate.
    + apply Hfirst. lia.
Qed.

(** C5. A connection whose two endpoints are declared layer names adds one
    two-point scatter: both points have the [x_pos] of the connection as [x];
    their [y] values are the rows of the source layer and of the destination
    layer, that is the [y] of the bars of the layers that [layer_names.index]
    finds for the two names; the source point carries a circle of size 4 and
    the destination point a downward triangle of size 8. *)
Theorem connector_geometry (layers : list layer) (f t p : string) (x : Q)
    (fig : figure) :
  In f (map name layers) ->
  In t (map name layers) ->
  exists (s : scatter) (from_idx to_idx : Z) (lf lt : layer),
    connection_body (map name layers) (f, t, p, x) fig
      = Ok (tt, fig ++ [Scatter s]) /\
    sc_mode s = lines_markers /\
    sc_x s = [x; x] /\
    index (map name layers) f = Ok from_idx /\
    index (map name layers) t = Ok to_idx /\
    nth_error layers (Z.to_nat from_idx) = Some lf /\
    nth_error layers (Z.to_nat to_idx) = Some lt /\
    sc_y s = trace_y (background_bar lf) ++ trace_y (background_bar lt) /\
    sc_y s = [f; t] /\
    sc_symbol s = [circle; triangle_down] /\
    sc_size s = [4; 8].
Proof.
  intros Hf Ht.
  destruct (index_from_In _ _ Hf 0) as [kf Ef].
  destruct (index_from_In _ _ Ht 0) as [kt Et].
  destruct (index_from_first _ _ _ _ Ef) as (_ & Hkf & _).
  destruct (index_from_first _ _ _ _ Et) as (_ & Hkt & _).
  rewrite Z.sub_0_r, nth_error_map in Hkf, Hkt.
  destruct (nth_error layers (Z.to_nat kf)) as [lf|] eqn:Elf; [|discriminate].
  destruct (nth_error layers (Z.to_nat kt)) as [lt|] eqn:Elt; [|discriminate].
  cbn in Hkf, Hkt. injection Hkf as Hkf. injection Hkt as Hkt.
  eexists _, kf, kt, lf, lt.
  split.
  { rewrite connection_body_adds. unfold connection_traces.
    rewrite (proj2 (contains_In _ _) Hf), (proj2 (contains_In _ _) Ht).
    reflexivity. }
  cbn. rewrite Hkf, Hkt. repeat split; assumption.
Qed.

(** The scenario connection [A -> B] at column 9.5. *)
Lemma connector_geometry_witness :
  exists s,
    connection_body (map name scenario_layers)
      ("A"%string, "B"%string, "HTTP"%string, 9.5%Q) []
      = Ok (tt, [Scatter s]) /\
    sc_x s = [9.5%Q; 9.5%Q] /\
    sc_y s = ["A"%string; "B"%string].
Proof.
  destruct (connector_geometry scenario_layers "A" "B" "HTTP" 9.5%Q [])
    as (s & kf & kt & lf & lt & E & _ & Hx & _ & _ & _ & _ & _ & Hy & _).
  - cbn. auto.
  - cbn. auto.
  - exists s. repeat split; assumption.
Defined.

(** ** Component blocks (lines 37-54) *)

Local Open Scope Q_scope.














Local Close Scope Q_scope.
Local Open Scope Z_scope.

(** ** Duplicate names and empty layers *)

Lemma layer_traces_backgrounds (layers : list layer) :
  filter is_background (flat_map layer_traces layers)
  = map background_bar layers.
Proof.
  induction layers as [|l layers IH]; [reflexivity|].
  cbn [flat_map map]. rewrite filter_app, IH. unfold layer_traces.
  cbn [filter is_background background_bar bar_base].
  rewrite filter_none; [reflexivity|].
  intros t H. apply in_map_iff in H. destruct H as (jc & <- & _). reflexivity.
Qed.

Lemma figure_backgrounds (layers : list layer) (cs : list connection)
    (ps : list string) (xs : list Q) (ys : list string) :
  filter is_background
    (flat_map layer_traces layers
     ++ flat_map (connection_traces (map name layers)) cs
     ++ label_traces ps xs ys)
  = map background_bar layers.
Proof.
  rewrite !filter_app, layer_traces_backgrounds.
  rewrite (filter_none is_background (flat_map _ cs)) by (intros; trace_kind).
  rewrite (filter_none is_background (label_traces ps xs ys))
    by (intros; trace_kind).
  now rewrite app_nil_r.
Qed.

(** C6 as the specification states it fails: two layers named ["A"] are
    accepted, both are drawn, and the script runs to the end. *)
Lemma duplicate_layers_not_rejected :
  ~ NoDup (map name duplicate_layers) /\
  exists fig, run_script duplicate_layers [] [] [] [] [] = Ok fig /\
              List.length (filter is_background fig) = 2%nat.
Proof.
  split.
  - intros H. inversion H as [|? ? Hnotin _]; subst. apply Hnotin. now left.
  - eexists. split; [apply script_traces|]. reflexivity.
Qed.



(** ** The whole script *)




(** ** The colour check and duplicate names (lines 16-102) *)

Section ValidationFacts.

Variable valid_color : string -> bool.

Lemma for_each_checked {A} (P : A -> Prop) (ok : A -> bool)
    (f : A -> list trace) (body : A -> M unit) :
  (forall a fig, P a ->
     body a fig = if ok a then Ok (tt, fig ++ f a) else Raise ValueError) ->
  forall l fig, Forall P l ->
    for_each l body fig
    = if forallb ok l then Ok (tt, fig ++ flat_map f l) else Raise ValueError.
Proof.
  intros Hbody l. induction l as [|a l IH]; intros fig HP.
  - cbn. now rewrite app_nil_r.
  - inversion HP as [|? ? Ha Hl]; subst.
    cbn [for_each flat_map forallb]. unfold bind at 1.
    rewrite (Hbody a fig Ha). destruct (ok a); [|reflexivity].
    cbn [andb]. rewrite (IH _ Hl). destruct (forallb ok l); [|reflexivity].
    now rewrite <- app_assoc.
Qed.

Lemma layer_body_checked_spec (layers : list layer) (i : Z) (l : layer)
    (fig : figure) :
  0 <= i < len layers ->
  layer_body_checked valid_color (y_positions layers) (i, l) fig
  = if valid_color (color l) then Ok (tt, fig ++ layer_traces l)
    else Raise ValueError.
Proof.
  intros Hi. unfold layer_body_checked, bind, lift.
  rewrite (y_positions_getitem layers i Hi).
  unfold add_bar at 1. cbn [background_bar bar_color].
  destruct (valid_color (color l)) eqn:Hv; [|reflexivity].
  change (add_trace ?t fig) with (Ok (tt, fig ++ [t])).
  rewrite component_width_ok. cbv iota beta.
  rewrite (for_each_adds (fun _ => True)
             (fun jc => [component_bar l (width_of l) (fst jc) (snd jc)])).
  - rewrite flat_map_single. unfold layer_traces. now rewrite <- app_assoc.
  - intros [j c] fig' _. unfold add_bar. cbn [component_bar bar_color].
    now rewrite Hv.
  - apply Forall_forall. trivial.
Qed.

Lemma forallb_enumerate_from {A} (ok : A -> bool) (l : list A) :
  forall s, forallb (fun ia => ok (snd ia)) (enumerate_from s l) = forallb ok l.
Proof. induction l as [|a l IH]; intros s; cbn; [|rewrite IH]; reflexivity. Qed.

Lemma run_script_checked_spec (layers : list layer) (cs : list connection)
    (ps : list string) (xs : list Q) (ys : list string) (before : figure) :
  run_script_checked valid_color layers cs ps xs ys before
  = if forallb (fun l => valid_color (color l)) layers
    then run_script layers cs ps xs ys before
    else Raise ValueError.
Proof.
  rewrite script_traces.
  unfold run_script_checked, script_checked, bind, new_figure.
  rewrite (for_each_checked (fun il => 0 <= fst il < len layers)
             (fun il => valid_color (color (snd il)))
             (fun il => layer_traces (snd il))).
  - unfold enumerate.
    rewrite (forallb_enumerate_from (fun l => valid_color (color l))).
    destruct (forallb _ layers); [|reflexivity].
    cbv iota beta. rewrite connection_loop. cbv iota beta.
    change (enumerate_from 0 (zip3 ps xs ys)) with (enumerate (zip3 ps xs ys)).
    rewrite label_loop. cbn [app].
    rewrite flat_map_concat_map, <- (map_map snd layer_traces).
    rewrite enumerate_from_snd, <- flat_map_concat_map.
    now rewrite <- app_assoc.
  - intros [i l] fig H. now apply layer_body_checked_spec.
  - apply (enumerate_from_bounds layers 0).
Qed.

End ValidationFacts.

(** C6, as the script behaves.  There is no check for duplicate layer names
    and no error for them: whatever the names are, the script runs to the end
    when [go.Bar] accepts the colour of every layer, and then every declared
    layer, duplicated name or not, has its own background bar and
    [layer_names.index] resolves a name to the first layer declared with it.
    The one error the script raises is the [ValueError] of [go.Bar], exactly
    when some layer has a colour it rejects. *)
Theorem duplicates_never_raise (valid_color : string -> bool)
    (layers : list layer) (cs : list connection)
    (ps : list string) (xs : list Q) (ys : list string) (before : figure) :
  (forallb (fun l => valid_color (color l)) layers = true ->
     exists fig : figure,
       run_script_checked valid_color layers cs ps xs ys before = Ok fig /\
       filter is_background fig = map background_bar layers /\
       (forall s, In s (map name layers) ->
          exists k, index (map name layers) s = Ok k /\
                    nth_error (map name layers) (Z.to_nat k) = Some s /\
                    forall m, (m < Z.to_nat k)%nat ->
                              nth_error (map name layers) m <> Some s)) /\
  (forallb (fun l => valid_color (color l)) layers = false ->
     run_script_checked valid_color layers cs ps xs ys before
     = Raise ValueError).
Proof.
  split; intros Hv; rewrite run_script_checked_spec, Hv; [|reflexivity].
  eexists. split; [apply script_traces|].
  split; [apply figure_backgrounds|].
  intros s Hs. destruct (index_from_In _ _ Hs 0) as [k Ek].
  exists k. split; [exact Ek|].
  destruct (index_from_first _ _ _ _ Ek) as (_ & Hnth & Hfirst).
  rewrite Z.sub_0_r in Hnth, Hfirst. split; assumption.
Qed.

(** Two layers named ["A"] with accepted colours are both drawn; a layer
    coloured ["banana"] makes the script raise. *)
Lemma duplicates_never_raise_witness :
  (exists fig,
     run_script_checked hash_color duplicate_layers [] [] [] [] [] = Ok fig /\
     filter is_background fig = map background_bar duplicate_layers) /\
  run_script_checked hash_color [mkLayer "A" [] "banana"] [] [] [] [] []
  = Raise ValueError.
Proof.
  split.
  - destruct (proj1 (duplicates_never_raise hash_color duplicate_layers
                       [] [] [] [] []) eq_refl) as (fig & E & Hb & _).
    exists fig. split; assumption.
  - apply (proj2 (duplicates_never_raise hash_color
                    [mkLayer "A" [] "banana"] [] [] [] [] [])).
    reflexivity.
Defined.

(** ** Component blocks in binary64 (lines 37-54) *)






Local Open Scope Q_scope.




(** ** Label anchors (lines 89-102) *)




Local Close Scope Q_scope.
Local Open Scope Z_scope.

(** ** Further properties of the script *)

(** *** The unused subscript (lines 19-24) *)



(** *** Name lookup (lines 66-71) *)

Lemma index_from_absent (l : list string) (s : string) :
  ~ In s l -> forall i, index_from i l s = Raise ValueError.
Proof.
  induction l as [|a l IH]; intros H i; [reflexivity|].
  cbn [index_from]. destruct (String.eqb a s) eqn:E.
  - apply String.eqb_eq in E. subst. exfalso. apply H. now left.
  - apply IH. intros Hin. apply H. now right.
Qed.

(** X2. The test of line 69 is exactly what the lookups of lines 70-71 need:
    when [s in l] holds, [l.index(s)] returns a position inside the list and
    subscripting the list there gives [s] back; when it does not hold,
    [l.index(s)] raises [ValueError]. *)
Theorem index_guarded (l : list string) (s : string) :
  (contains s l = true ->
     exists k, index l s = Ok k /\ 0 <= k < len l /\ getitem l k = Ok s) /\
  (contains s l = false -> index l s = Raise ValueError).
Proof.
  split.
  - intros H. apply contains_In in H.
    destruct (index_from_In _ _ H 0) as [k Ek]. exists k.
    destruct (index_from_first _ _ _ _ Ek) as (Hk & Hnth & _).
    rewrite Z.sub_0_r in Hnth.
    assert (Hlt : (Z.to_nat k < List.length l)%nat).
    { apply nth_error_Some. congruence. }
    split; [exact Ek|]. split; [unfold len; lia|].
    rewrite <- (Z2Nat.id k) by lia. now apply getitem_nth_error.
  - intros H. apply index_from_absent. intros Hin.
    apply contains_In in Hin. congruence.
Qed.

Lemma index_guarded_witness :
  (exists k, index (map name scenario_layers) "B" = Ok k /\
             0 <= k < len (map name scenario_layers) /\
             getitem (map name scenario_layers) k = Ok "B"%string) /\
  index (map name scenario_layers) "C" = Raise ValueError.
Proof.
  split.
  - apply (proj1 (index_guarded (map name scenario_layers) "B")). reflexivity.
  - apply (proj2 (index_guarded (map name scenario_layers) "C")). reflexivity.
Defined.

(** X3. When the layer names are unique, looking up the name of the layer
    declared at position [k] gives [k]. *)
Theorem index_of_declared_layer (layers : list layer) (k : nat) (l : layer) :
  NoDup (map name layers) ->
  nth_error layers k = Some l ->
  index (map name layers) (name l) = Ok (Z.of_nat k).
Proof.
  intros Hnd Hk.
  assert (Hnm : nth_error (map name layers) k = Some (name l))
    by now rewrite nth_error_map, Hk.
  destruct (index_from_In _ _ (nth_error_In _ _ Hnm) 0) as [j Ej].
  destruct (index_from_first _ _ _ _ Ej) as (Hj & Hnth & _).
  rewrite Z.sub_0_r in Hnth.
  assert (E : Z.to_nat j = k).
  { apply (proj1 (NoDup_nth_error (map name layers)) Hnd).
    - apply nth_error_Some. congruence.
    - congruence. }
  unfold index. rewrite Ej. f_equal. lia.
Qed.

Lemma index_of_declared_layer_witness :
  index (map name scenario_layers) "B" = Ok 1.
Proof.
  apply (index_of_declared_layer scenario_layers 1
           (mkLayer "B" ["comp1"]%string "#FFFFFF")).
  - cbn. repeat constructor; cbn; intuition discriminate.
  - reflexivity.
Defined.

(** *** Rows and the category axis (lines 27-86, 113-118) *)





(** X6. With no layer declared nothing resolves: the figure holds no bar and
    no connector whatever the connections are, only the labels; the slot
    assignment is empty; no error is raised. *)
Theorem no_layers_only_labels (cs : list connection) (ps : list string)
    (xs : list Q) (ys : list string) (before : figure) :
  run_script [] cs ps xs ys before = Ok (label_traces ps xs ys) /\
  slots [] = Ok [] /\
  yaxis_categoryarray (script_layout []) = [].
Proof.
  split; [|split; reflexivity].
  rewrite script_traces. cbn [flat_map map app].
  rewrite connection_traces_filter, (filter_none (resolves [])).
  - reflexivity.
  - intros [[[f t] p] x] _. reflexivity.
Qed.

(** *** Length of a row of component bars *)

Local Open Scope Q_scope.


(** *** Bars and the x axis (lines 27-47, 107-112) *)




Local Close Scope Q_scope.
Local Open Scope Z_scope.

(** *** Shape of the figure (lines 16-102) *)



(** *** The label tables (lines 89-102) *)

(** X11. The label loop pairs the three tables by position and stops at the
    end of the shortest one without raising: the label at position [k] is
    made of the [k]-th entries of the three tables, and entries beyond the
    shortest table are not drawn. *)
Theorem labels_by_position (ps : list string) (xs : list Q)
    (ys : list string) (fig : figure) :
  exists labels : list trace,
    for_each (enumerate (zip3 ps xs ys)) label_body fig
      = Ok (tt, fig ++ labels) /\
    List.length labels
      = Nat.min (List.length ps)
                (Nat.min (List.length xs) (List.length ys)) /\
    (forall k p x y,
        nth_error ps k = Some p -> nth_error xs k = Some x ->
        nth_error ys k = Some y ->
        nth_error labels k = Some (label p x y)) /\
    (forall k, nth_error ps k = None \/ nth_error xs k = None \/
               nth_error ys k = None ->
               nth_error labels k = None).
Proof.
  exists (label_traces ps xs ys).
  split; [apply label_loop|].
  assert (Hlen : List.length (label_traces ps xs ys)
                 = Nat.min (List.length ps)
                     (Nat.min (List.length xs) (List.length ys))).
  { unfold label_traces. now rewrite length_map, zip3_length. }
  split; [exact Hlen|]. split.
  - intros k p x y Hp Hx Hy. unfold label_traces.
    now rewrite nth_error_map, (zip3_nth_error _ _ _ _ _ _ _ Hp Hx Hy).
  - intros k H. apply nth_error_None. rewrite Hlen.
    destruct H as [H|[H|H]]; apply nth_error_None in H; lia.
Qed.

Lemma labels_by_position_witness :
  exists labels,
    for_each (enumerate (zip3 ["HTTP"; "TCP"]%string [9.7%Q] ["B"; "C"]%string))
      label_body []
      = Ok (tt, labels) /\
    nth_error labels 0 = Some (label "HTTP" 9.7%Q "B") /\
    nth_error labels 1 = None.
Proof.
  destruct (labels_by_position ["HTTP"; "TCP"]%string [9.7%Q]
              ["B"; "C"]%string [])
    as (labels & E & _ & Hnth & Hnone).
  exists labels. split; [exact E|]. split.
  - apply Hnth; reflexivity.
  - apply Hnone. right. left. reflexivity.
Defined.
